(** * ocr_extract.py: the extraction runner, embedded and verified

    The script [neb-screen-keys/ocr_extract.py] guards two imports, checks
    its command line, checks that the image exists, loads a model, runs it
    on the image, normalises the result to a text and prints one JSON
    object.  This file embeds the script in a small state-and-exception
    monad over an explicit model of the outside world, and proves the
    properties of its output and exit status.

    Conventions of the embedding:
    - a Python [str] is a [string] whose characters are the code points
      0..255; code points above 255 are outside the embedding; an instance
      of a subclass of [str] is the [PStr] of its text;
    - Python values are the inductive [pyval]: the built-in scalars, lists,
      tuples and dicts, instances of subclasses of [dict] ([PDictSub], with
      their items and their own [str()] and [repr()]; they inherit [get]
      and [items]), and opaque objects ([PObj]) that carry their type
      name, the outcomes of [str()] and [repr()] on them and the exception
      [json.dumps] raises on them;
    - [str()] and [repr()] can raise: on an [int] of more than 4300 digits
      (the interpreter's default limit), on an object whose [__str__] or
      [__repr__] raises, and on a container that holds such a value;
      [json.dumps] raises on the same integers, on a key that is no
      scalar, and on every opaque object;
    - a value is a finite tree; where a container holds itself, or is
      nested beyond the recursion limit, the place where [repr()] or
      [json.dumps] gives up is written as an opaque object with those
      outcomes (see [back_reference]);
    - everything the script calls outside itself (the two imports,
      [Path.exists], [AutoModel.from_pretrained], [Image.open], the model
      call) is an oracle of the [World]; an oracle may raise any exception,
      of any class;
    - the module is run as a program, so [__name__ == "__main__"] holds
      and [main()] is called after the import guard. *)

From Stdlib Require Import ZArith NArith String Ascii List Bool Lia DecimalString.
Import ListNotations.
Local Open Scope string_scope.
Local Open Scope Z_scope.
Set Warnings "-register-all".

(** ** Text helpers *)

(** The double-quote character, and the one-character strings used to
    build literal outputs. *)
Definition dquote : ascii := "034"%char.
Definition squote : ascii := "'"%char.
Definition bslash : ascii := "\"%char.

Definition str1 (c : ascii) : string := String c EmptyString.

Fixpoint join (sep : string) (l : list string) : string :=
  match l with
  | [] => EmptyString
  | [x] => x
  | x :: t => x ++ sep ++ join sep t
  end.

Fixpoint contains_char (c : ascii) (s : string) : bool :=
  match s with
  | EmptyString => false
  | String a t => Ascii.eqb a c || contains_char c t
  end.

Fixpoint concat_map_chars (f : ascii -> string) (s : string) : string :=
  match s with
  | EmptyString => EmptyString
  | String a t => f a ++ concat_map_chars f t
  end.

(** Lower-case hexadecimal, as Python's escapes print it. *)
Definition hex_digit (n : N) : ascii :=
  if (n <? 10)%N then ascii_of_N (48 + n) else ascii_of_N (87 + n).

Definition hex2 (c : ascii) : string :=
  let n := N_of_ascii c in
  String (hex_digit (n / 16)) (String (hex_digit (n mod 16)) EmptyString).

(** [int.__repr__]: signed decimal. *)
Definition int_repr (z : Z) : string := NilZero.string_of_int (Z.to_int z).

(** ** Exceptions *)

(** Classes deriving from [Exception]. [OtherException] stands for any
    such class outside the [ImportError] family, named by its field. *)
Inductive exc_class :=
| ImportError
| ModuleNotFoundError
| IndexError
| TypeError
| ValueError
| AttributeError
| OtherException (name : string).

(** A raised exception: an instance of a class under [Exception] with the
    text of [str()] on it, or one of the two [BaseException] classes that
    are not under [Exception]. *)
Inductive exc :=
| SystemExit (code : Z)
| KeyboardInterrupt
| Exc (cls : exc_class) (msg : string).

Definition isinstance_Exception (e : exc) : bool :=
  match e with Exc _ _ => true | _ => false end.

Definition isinstance_ImportError (e : exc) : bool :=
  match e with
  | Exc ImportError _ | Exc ModuleNotFoundError _ => true
  | _ => false
  end.

Definition exc_str (e : exc) : string :=
  match e with
  | Exc _ msg => msg
  | SystemExit c => int_repr c
  | KeyboardInterrupt => EmptyString
  end.

(** The outcome of an expression: a value, or a raised exception. *)
Inductive attempt (A : Type) :=
| Return (a : A)
| Raised (e : exc).
Arguments Return {A} a.
Arguments Raised {A} e.

Definition and_then {A B : Type} (r : attempt A) (k : A -> attempt B) : attempt B :=
  match r with
  | Return a => k a
  | Raised e => Raised e
  end.

(** ** Python values *)

Record pyobj := PyObj {
  obj_type : string;           (* type(o).__name__ *)
  obj_str  : attempt string;   (* str(o) *)
  obj_repr : attempt string    (* repr(o) *)
}.

Inductive pyval :=
| PNone
| PBool (b : bool)
| PInt (z : Z)
| PFloat (r : string)            (* a float, given by its repr() *)
| PStr (s : string)
| PList (l : list pyval)
| PTuple (l : list pyval)
| PDict (d : list (pyval * pyval)) (* items in insertion order *)
| PDictSub (o : pyobj) (d : list (pyval * pyval))
    (* an instance of a subclass of dict (OrderedDict, a model output
       class): its items, and its own type name, str() and repr() *)
| PObj (o : pyobj) (refusal : exc).
    (* any other object, and what json.dumps raises on it *)

(** [isinstance(v, dict)] holds for a dict and for an instance of a
    subclass of dict. *)
Definition isinstance_dict (v : pyval) : bool :=
  match v with PDict _ | PDictSub _ _ => true | _ => false end.

Definition isinstance_str (v : pyval) : bool :=
  match v with PStr _ => true | _ => false end.

(** The items of a mapping. *)
Definition mapping_items (v : pyval) : option (list (pyval * pyval)) :=
  match v with
  | PDict d | PDictSub _ d => Some d
  | _ => None
  end.

Definition type_name (v : pyval) : string :=
  match v with
  | PNone => "NoneType"
  | PBool _ => "bool"
  | PInt _ => "int"
  | PFloat _ => "float"
  | PStr _ => "str"
  | PList _ => "list"
  | PTuple _ => "tuple"
  | PDict _ => "dict"
  | PDictSub o _ => obj_type o
  | PObj o _ => obj_type o
  end.

(** *** [repr()] and [str()] *)

(** The default limit on the digits of an [int] turned into text. *)
Definition int_max_str_digits : nat := 4300.

Definition digits_exceeded : exc :=
  Exc ValueError
    "Exceeds the limit (4300 digits) for integer string conversion; use sys.set_int_max_str_digits() to increase the limit".

(** [str(z)] and [repr(z)] on an [int]: the decimal text, or a
    [ValueError] when it has more digits than the limit. *)
Definition int_str (z : Z) : attempt string :=
  if (int_max_str_digits <? String.length (int_repr (Z.abs z)))%nat
  then Raised digits_exceeded
  else Return (int_repr z).

(** Code points of the Latin-1 range that [str.isprintable] accepts. *)
Definition printable (n : N) : bool :=
  ((32 <=? n)%N && (n <? 127)%N) || ((161 <=? n)%N && negb (n =? 173)%N).

Definition repr_char (quote : ascii) (c : ascii) : string :=
  let n := N_of_ascii c in
  if Ascii.eqb c quote || Ascii.eqb c bslash then String bslash (str1 c)
  else if (n =? 9)%N then "\t"
  else if (n =? 10)%N then "\n"
  else if (n =? 13)%N then "\r"
  else if printable n then str1 c
  else "\x" ++ hex2 c.

(** [str.__repr__]: single quotes, unless the text has a single quote
    and no double quote. *)
Definition str_repr (s : string) : string :=
  let quote :=
    if contains_char squote s && negb (contains_char dquote s)
    then dquote else squote in
  str1 quote ++ concat_map_chars (repr_char quote) s ++ str1 quote.

(** [repr(v)]. The elements of a container are turned into text in
    order, and the first one that raises ends the call. *)
Fixpoint py_repr (v : pyval) : attempt string :=
  match v with
  | PNone => Return "None"
  | PBool true => Return "True"
  | PBool false => Return "False"
  | PInt z => int_str z
  | PFloat r => Return r
  | PStr s => Return (str_repr s)
  | PList l =>
      let fix elements (l : list pyval) : attempt (list string) :=
        match l with
        | [] => Return []
        | x :: t =>
            match py_repr x with
            | Raised e => Raised e
            | Return sx =>
                match elements t with
                | Raised e => Raised e
                | Return st => Return (sx :: st)
                end
            end
        end in
      match elements l with
      | Raised e => Raised e
      | Return ss => Return ("[" ++ join ", " ss ++ "]")
      end
  | PTuple l =>
      let fix elements (l : list pyval) : attempt (list string) :=
        match l with
        | [] => Return []
        | x :: t =>
            match py_repr x with
            | Raised e => Raised e
            | Return sx =>
                match elements t with
                | Raised e => Raised e
                | Return st => Return (sx :: st)
                end
            end
        end in
      match elements l with
      | Raised e => Raised e
      | Return [sx] => Return ("(" ++ sx ++ ",)")
      | Return ss => Return ("(" ++ join ", " ss ++ ")")
      end
  | PDict d =>
      let fix items (d : list (pyval * pyval)) : attempt (list string) :=
        match d with
        | [] => Return []
        | (k, x) :: t =>
            match py_repr k with
            | Raised e => Raised e
            | Return sk =>
                match py_repr x with
                | Raised e => Raised e
                | Return sx =>
                    match items t with
                    | Raised e => Raised e
                    | Return st => Return ((sk ++ ": " ++ sx) :: st)
                    end
                end
            end
        end in
      match items d with
      | Raised e => Raised e
      | Return ss => Return ("{" ++ join ", " ss ++ "}")
      end
  | PDictSub o _ => obj_repr o
  | PObj o _ => obj_repr o
  end.

(** [str(v)]: the text itself for a [str], [__str__] for an opaque
    object or an instance of a dict subclass, and [repr] for the built-in
    scalars and containers. *)
Definition py_str (v : pyval) : attempt string :=
  match v with
  | PStr s => Return s
  | PObj o _ => obj_str o
  | PDictSub o _ => obj_str o
  | _ => py_repr v
  end.

(** ** [json.dumps] with its default arguments *)

(** One character of a JSON string under [ensure_ascii=True]. *)
Definition json_char (c : ascii) : string :=
  let n := N_of_ascii c in
  if (n =? 34)%N then String bslash (str1 dquote)
  else if (n =? 92)%N then "\\"
  else if (n =? 10)%N then "\n"
  else if (n =? 13)%N then "\r"
  else if (n =? 9)%N then "\t"
  else if (n =? 8)%N then "\b"
  else if (n =? 12)%N then "\f"
  else if (32 <=? n)%N && (n <=? 126)%N then str1 c
  else "\u00" ++ hex2 c.

Definition json_string (s : string) : string :=
  str1 dquote ++ concat_map_chars json_char s ++ str1 dquote.

Definition json_float (r : string) : string :=
  if String.eqb r "nan" then "NaN"
  else if String.eqb r "inf" then "Infinity"
  else if String.eqb r "-inf" then "-Infinity"
  else r.

(** The text a dict key is coerced to, or the exception of the encoder:
    a [TypeError] for a key of another type, the [ValueError] of the digit
    limit for an [int]. *)
Definition json_key (k : pyval) : attempt string :=
  match k with
  | PStr s => Return s
  | PInt z => int_str z
  | PBool true => Return "true"
  | PBool false => Return "false"
  | PNone => Return "null"
  | PFloat r => Return (json_float r)
  | _ => Raised (Exc TypeError
           ("keys must be str, int, float, bool or None, not " ++ type_name k))
  end.

(** [json.dumps(v)]. An instance of a dict subclass is encoded as a dict,
    an [int] through its decimal text; an opaque object is refused. *)
Fixpoint json_dumps (v : pyval) : attempt string :=
  match v with
  | PNone => Return "null"
  | PBool true => Return "true"
  | PBool false => Return "false"
  | PInt z => int_str z
  | PFloat r => Return (json_float r)
  | PStr s => Return (json_string s)
  | PList l | PTuple l =>
      let fix items (l : list pyval) : attempt (list string) :=
        match l with
        | [] => Return []
        | x :: t =>
            match json_dumps x with
            | Raised e => Raised e
            | Return sx =>
                match items t with
                | Raised e => Raised e
                | Return st => Return (sx :: st)
                end
            end
        end in
      match items l with
      | Raised e => Raised e
      | Return ss => Return ("[" ++ join ", " ss ++ "]")
      end
  | PDict d | PDictSub _ d =>
      let fix items (d : list (pyval * pyval)) : attempt (list string) :=
        match d with
        | [] => Return []
        | (k, x) :: t =>
            match json_key k with
            | Raised e => Raised e
            | Return sk =>
                match json_dumps x with
                | Raised e => Raised e
                | Return sx =>
                    match items t with
                    | Raised e => Raised e
                    | Return st => Return ((json_string sk ++ ": " ++ sx) :: st)
                    end
                end
            end
        end in
      match items d with
      | Raised e => Raised e
      | Return ss => Return ("{" ++ join ", " ss ++ "}")
      end
  | PObj _ refusal => Raised refusal
  end.

(** *** Objects the encoder refuses *)



(** A container met again inside itself: [repr()] prints the ellipsis
    form ([[...]] for a list, [{...}] for a dict), and [json.dumps] raises
    a [ValueError]. *)
Definition circular_reference : exc :=
  Exc ValueError "Circular reference detected".

Definition back_reference (type_name ellipsis : string) : pyval :=
  PObj (PyObj type_name (Return ellipsis) (Return ellipsis)) circular_reference.


(** ** [dict.get] *)

(** Lookup of a [str] key: only a [str] key with the same text compares
    equal to it. *)
Fixpoint dict_lookup (d : list (pyval * pyval)) (key : string) : option pyval :=
  match d with
  | [] => None
  | (PStr k, v) :: t => if String.eqb k key then Some v else dict_lookup t key
  | _ :: t => dict_lookup t key
  end.

(** [v.get(key, default)]: the method of [dict], which its subclasses
    inherit. The default is an argument, so the caller has computed it
    before the call. *)
Definition py_get (v : pyval) (key : string) (default : pyval) : attempt pyval :=
  match mapping_items v with
  | Some d =>
      match dict_lookup d key with
      | Some x => Return x
      | None => Return default
      end
  | None => Raised (Exc AttributeError
           ("'" ++ type_name v ++ "' object has no attribute 'get'"))
  end.

(** [l[i]] on a list. *)
Definition subscript {A : Type} (l : list A) (i : nat) : attempt A :=
  match nth_error l i with
  | Some x => Return x
  | None => Raised (Exc IndexError "list index out of range")
  end.

(** ** The process: output streams, outside calls, exceptions *)

(** A call that leaves the script. *)
Inductive call :=
| CImport (module name : string)
| CExists (path : string)
| CFromPretrained (identifier : string)
| CImageOpen (path : string)
| CModelCall (path : string).

(** What the process has done so far: the lines printed on each stream
    (one entry per [print]), and the outside calls, oldest first. *)
Record Proc := MkProc {
  stdout : list string;
  stderr : list string;
  calls  : list call
}.

Definition start : Proc := MkProc [] [] [].

(** A statement: from the process so far to a value or a raised exception,
    and the process after it. What was printed before an exception stays
    printed. *)
Definition M (A : Type) : Type := Proc -> attempt A * Proc.

Definition ret {A} (a : A) : M A := fun p => (Return a, p).

Definition bind {A B} (m : M A) (k : A -> M B) : M B :=
  fun p =>
    match m p with
    | (Return a, p') => k a p'
    | (Raised e, p') => (Raised e, p')
    end.

Definition raise {A} (e : exc) : M A := fun p => (Raised e, p).

Definition lift {A} (r : attempt A) : M A := fun p => (r, p).

Notation "x <- m ;; k" := (bind m (fun x => k))
  (at level 61, m at next level, right associativity).
Notation "m ;; k" := (bind m (fun _ => k))
  (at level 61, right associativity).

(** [try: body  except cls as e: handler e], where [catches] is the
    [isinstance] test of the class. *)
Definition try_except {A} (body : M A) (catches : exc -> bool)
    (handler : exc -> M A) : M A :=
  fun p =>
    match body p with
    | (Raised e, p') => if catches e then handler e p' else (Raised e, p')
    | r => r
    end.

Definition print (line : string) : M unit :=
  fun p => (Return tt, MkProc (stdout p ++ [line]) (stderr p) (calls p)).

Definition print_stderr (line : string) : M unit :=
  fun p => (Return tt, MkProc (stdout p) (stderr p ++ [line]) (calls p)).

(** A call to the outside: logged, then its outcome. *)
Definition outside {A} (c : call) (r : attempt A) : M A :=
  fun p => (r, MkProc (stdout p) (stderr p) (calls p ++ [c])).

Definition sys_exit {A} (code : Z) : M A := raise (SystemExit code).

(** ** The world outside the script *)

Record World := MkWorld {
  (* [from module import name]: [Return tt] when the name gets bound *)
  import_from : string -> string -> attempt unit;
  (* [sys.argv]: the script's name, then the positional arguments *)
  argv : list string;
  (* [Path(p).exists()]: a truth value, or the [OSError] of a path the
     system cannot examine (name too long, directory not searchable) *)
  path_exists : string -> attempt bool;
  (* [AutoModel.from_pretrained(identifier, ...)]: a model, or a failure *)
  from_pretrained : string -> attempt unit;
  (* [Image.open(p)]: an image, or a failure *)
  image_open : string -> attempt unit;
  (* [model(image)] for the image opened from [p] *)
  model_call : string -> attempt pyval
}.

Definition with_argv (w : World) (a : list string) : World :=
  MkWorld (import_from w) a (path_exists w) (from_pretrained w)
          (image_open w) (model_call w).

(** ** The script *)

Definition error_object (msg : string) : pyval := PDict [(PStr "error", PStr msg)].
Definition status_object (msg : string) : pyval := PDict [(PStr "status", PStr msg)].
Definition text_object (text : pyval) : pyval := PDict [(PStr "text", text)].

(** [print(json.dumps(obj))] and [print(json.dumps(obj), file=sys.stderr)]. *)
Definition print_json (obj : pyval) : M unit :=
  line <- lift (json_dumps obj) ;; print line.

Definition print_json_stderr (obj : pyval) : M unit :=
  line <- lift (json_dumps obj) ;; print_stderr line.

Definition missing_dependencies (e : exc) : string :=
  "Missing dependencies: " ++ exc_str e
    ++ ". Install with: pip install transformers pillow torch".

Definition usage : string := "Usage: python3 ocr_extract.py <image_path>".

Definition image_not_found (image_path : string) : string :=
  "Image file not found: " ++ image_path.

Definition processing_failed (e : exc) : string :=
  "OCR processing failed: " ++ exc_str e.

Definition model_identifier : string := "deepseek-ai/DeepSeek-OCR".

(** Lines 11-16: the guarded imports at module level. *)
Definition import_guard (w : World) : M unit :=
  try_except
    (outside (CImport "transformers" "AutoModel")
             (import_from w "transformers" "AutoModel") ;;
     outside (CImport "PIL" "Image") (import_from w "PIL" "Image"))
    isinstance_ImportError
    (fun e => print_json (error_object (missing_dependencies e)) ;; sys_exit 1).

(** Lines 41-46: the text extracted from the model's result. The default
    of [result.get] is [str(result)], computed before the lookup, also
    when the key is present. *)
Definition extract_text (result : pyval) : attempt pyval :=
  if isinstance_dict result then
    and_then (py_str result) (fun default => py_get result "text" (PStr default))
  else if isinstance_str result then
    Return result
  else
    and_then (py_str result) (fun s => Return (PStr s)).

(** Lines 30-50: the body of the [try]. *)
Definition processing (w : World) (image_path : string) : M unit :=
  print_json_stderr (status_object "Loading DeepSeek-OCR model...") ;;
  _ <- outside (CFromPretrained model_identifier)
               (from_pretrained w model_identifier) ;;
  print_json_stderr (status_object "Processing image...") ;;
  _ <- outside (CImageOpen image_path) (image_open w image_path) ;;
  result <- outside (CModelCall image_path) (model_call w image_path) ;;
  text <- lift (extract_text result) ;;
  print_json (text_object text).

(** Lines 18-54. The existence test of line 25 is before the [try]: an
    exception it raises leaves [main]. *)
Definition main (w : World) : M unit :=
  (if (length (argv w) <? 2)%nat
   then print_json (error_object usage) ;; sys_exit 1
   else ret tt) ;;
  image_path <- lift (subscript (argv w) 1) ;;
  found <- outside (CExists image_path) (path_exists w image_path) ;;
  (if negb found
   then print_json (error_object (image_not_found image_path)) ;; sys_exit 1
   else ret tt) ;;
  try_except (processing w image_path) isinstance_Exception
    (fun e => print_json (error_object (processing_failed e)) ;; sys_exit 1).

(** The module, run as a program: the import guard, then [main()]. *)
Definition script (w : World) : M unit :=
  import_guard w ;; main w.

(** ** The interpreter around the script *)

(** How the process ends: with an exit status, or on an exception nobody
    caught (the interpreter then prints a traceback on the diagnostic
    stream, which [stderr] does not record). *)
Inductive termination :=
| Exited (status : Z)
| Uncaught (e : exc).

Record Outcome := MkOutcome {
  final : Proc;
  ending : termination
}.

Definition run (w : World) : Outcome :=
  match script w start with
  | (Return _, p) => MkOutcome p (Exited 0)
  | (Raised (SystemExit code), p) => MkOutcome p (Exited (code mod 256))
  | (Raised e, p) => MkOutcome p (Uncaught e)
  end.

(** The exit status the caller sees: 1 after a traceback; after an
    uncaught interrupt the process ends on SIGINT, which a shell reports
    as 128 + 2. *)
Definition exit_status (o : Outcome) : Z :=
  match ending o with
  | Exited status => status
  | Uncaught KeyboardInterrupt => 130
  | Uncaught _ => 1
  end.

Definition output (w : World) : list string := stdout (final (run w)).


(** ** Lines on standard output *)

(** A text between double quotes, for spelling out expected outputs. *)
Definition quoted (s : string) : string := str1 dquote ++ s ++ str1 dquote.

(** The line [json.dumps] gives for a dict with the one key [key], given
    the encoding of its value. *)
Definition object_line (key value_text : string) : string :=
  "{" ++ (json_string key ++ ": " ++ value_text) ++ "}".

Definition error_line (msg : string) : string :=
  object_line "error" (json_string msg).

Definition status_line (msg : string) : string :=
  object_line "status" (json_string msg).

Definition text_line (value_text : string) : string :=
  object_line "text" value_text.




(** ** Conditions on the world *)

Definition imports_ok (w : World) : Prop :=
  import_from w "transformers" "AutoModel" = Return tt /\
  import_from w "PIL" "Image" = Return tt.


(** The run gets to the [try]: the imports succeed, there is a first
    positional argument and it names an existing path. *)
Definition reaches_processing (w : World) (image_path : string) : Prop :=
  imports_ok w /\
  nth_error (argv w) 1 = Some image_path /\
  path_exists w image_path = Return true.




(** How the interpreter ends on an exception that reaches it. *)
Definition interpreter_ending (e : exc) : termination :=
  match e with
  | SystemExit code => Exited (code mod 256)
  | _ => Uncaught e
  end.

(** The text the script takes from a result, in the words of its
    description, given the string form [repr_text] of the result: for a
    mapping its [text] field when present, else the mapping's string form;
    a string as it is; the string form of anything else. *)
Definition spec_normalize (result : pyval) (repr_text : string) : pyval :=
  match mapping_items result with
  | Some d =>
      match dict_lookup d "text" with
      | Some field => field
      | None => PStr repr_text
      end
  | None =>
      match result with
      | PStr s => PStr s
      | _ => PStr repr_text
      end
  end.

(** The outside calls of the import guard when both imports succeed. *)
Definition import_calls : list call :=
  [CImport "transformers" "AutoModel"; CImport "PIL" "Image"].



(** ** Worlds for the examples *)

(** A world where everything works: the imports succeed, [shot.png] is
    the one path on disk, the model loads, the image opens, and the model
    call has the given outcome. *)
Definition demo (args : list string) (r : attempt pyval) : World :=
  MkWorld (fun _ _ => Return tt) ("ocr_extract.py" :: args)
          (fun p => Return (String.eqb p "shot.png"))
          (fun _ => Return tt) (fun _ => Return tt) (fun _ => r).

(** Both imports raise [e]; the given path is on disk or not. *)
Definition importing (e : exc) (args : list string) (on_disk : bool) : World :=
  MkWorld (fun _ _ => Raised e) ("ocr_extract.py" :: args)
          (fun _ => Return on_disk)
          (fun _ => Return tt) (fun _ => Return tt) (fun _ => Return PNone).

Definition no_transformers : exc :=
  Exc ModuleNotFoundError "No module named 'transformers'".




(** The existence test raises: the name is longer than the system
    allows. *)
Definition name_too_long : exc :=
  Exc (OtherException "OSError") "[Errno 36] File name too long".

Definition unexaminable (image_path : string) : World :=
  MkWorld (fun _ _ => Return tt) ["ocr_extract.py"; image_path]
          (fun _ => Raised name_too_long)
          (fun _ => Return tt) (fun _ => Return tt) (fun _ => Return PNone).


(** An instance of [OrderedDict] with the items [d], whose [str()] and
    [repr()] give [text]. *)
Definition ordered_dict (text : string) (d : list (pyval * pyval)) : pyval :=
  PDictSub (PyObj "OrderedDict" (Return text) (Return text)) d.

(** A list that holds itself: [l = []; l.append(l)]. *)
Definition circular_list : pyval := PList [back_reference "list" "[...]"].

(** ** The trace of a run *)

(** The two status lines of the diagnostic stream. *)
Definition loading_line : string := status_line "Loading DeepSeek-OCR model...".
Definition processing_line : string := status_line "Processing image...".

(** The outside calls [main] makes on the path [image_path], in the order
    of the source: existence test, model load, image open, model call. *)
Definition processing_calls (image_path : string) : list call :=
  [CExists image_path; CFromPretrained model_identifier;
   CImageOpen image_path; CModelCall image_path].

(** All the outside calls a run can make, in order: the two imports, then
    the calls on the first positional argument if there is one. *)
Definition planned_calls (w : World) : list call :=
  (import_calls ++
   match nth_error (argv w) 1 with
   | Some image_path => processing_calls image_path
   | None => []
   end)%list.

(** How a run ends when [e] is raised under a handler whose class test is
    [catches] and whose message is [msg e], with [err] on the diagnostic
    stream and the outside calls [cs] made so far: caught, the error line
    is printed and the handler exits with status 1; otherwise nothing is
    printed and the exception goes to the interpreter. *)
Definition raised_under (catches : exc -> bool) (msg : exc -> string)
    (e : exc) (err : list string) (cs : list call) : Outcome :=
  if catches e
  then MkOutcome (MkProc [error_line (msg e)] err cs) (Exited 1)
  else MkOutcome (MkProc [] err cs) (interpreter_ending e).

(** Where a run stops, and the outcome there. *)
Inductive stops (w : World) : Outcome -> Prop :=
| stops_first_import (e : exc) :
    import_from w "transformers" "AutoModel" = Raised e ->
    stops w (raised_under isinstance_ImportError missing_dependencies e []
               [CImport "transformers" "AutoModel"])
| stops_second_import (e : exc) :
    import_from w "transformers" "AutoModel" = Return tt ->
    import_from w "PIL" "Image" = Raised e ->
    stops w (raised_under isinstance_ImportError missing_dependencies e []
               import_calls)
| stops_usage :
    imports_ok w -> (length (argv w) <? 2)%nat = true ->
    stops w (MkOutcome (MkProc [error_line usage] [] import_calls) (Exited 1))
| stops_not_found (image_path : string) :
    imports_ok w -> nth_error (argv w) 1 = Some image_path ->
    path_exists w image_path = Return false ->
    stops w (MkOutcome
               (MkProc [error_line (image_not_found image_path)] []
                       (import_calls ++ [CExists image_path]))
               (Exited 1))
| stops_exists (image_path : string) (e : exc) :
    imports_ok w -> nth_error (argv w) 1 = Some image_path ->
    path_exists w image_path = Raised e ->
    stops w (MkOutcome
               (MkProc [] [] (import_calls ++ [CExists image_path]))
               (interpreter_ending e))
| stops_load (image_path : string) (e : exc) :
    reaches_processing w image_path ->
    from_pretrained w model_identifier = Raised e ->
    stops w (raised_under isinstance_Exception processing_failed e
               [loading_line]
               (import_calls ++ firstn 2 (processing_calls image_path)))
| stops_open (image_path : string) (e : exc) :
    reaches_processing w image_path ->
    from_pretrained w model_identifier = Return tt ->
    image_open w image_path = Raised e ->
    stops w (raised_under isinstance_Exception processing_failed e
               [loading_line; processing_line]
               (import_calls ++ firstn 3 (processing_calls image_path)))
| stops_call (image_path : string) (e : exc) :
    reaches_processing w image_path ->
    from_pretrained w model_identifier = Return tt ->
    image_open w image_path = Return tt ->
    model_call w image_path = Raised e ->
    stops w (raised_under isinstance_Exception processing_failed e
               [loading_line; processing_line]
               (import_calls ++ processing_calls image_path))
| stops_extract (image_path : string) (result : pyval) (e : exc) :
    reaches_processing w image_path ->
    from_pretrained w model_identifier = Return tt ->
    image_open w image_path = Return tt ->
    model_call w image_path = Return result ->
    extract_text result = Raised e ->
    stops w (raised_under isinstance_Exception processing_failed e
               [loading_line; processing_line]
               (import_calls ++ processing_calls image_path))
| stops_rejected (image_path : string) (result text : pyval) (e : exc) :
    reaches_processing w image_path ->
    from_pretrained w model_identifier = Return tt ->
    image_open w image_path = Return tt ->
    model_call w image_path = Return result ->
    extract_text result = Return text ->
    json_dumps (text_object text) = Raised e ->
    stops w (raised_under isinstance_Exception processing_failed e
               [loading_line; processing_line]
               (import_calls ++ processing_calls image_path))
| stops_printed (image_path : string) (result text : pyval) (line : string) :
    reaches_processing w image_path ->
    from_pretrained w model_identifier = Return tt ->
    image_open w image_path = Return tt ->
    model_call w image_path = Return result ->
    extract_text result = Return text ->
    json_dumps (text_object text) = Return line ->
    stops w (MkOutcome (MkProc [line] [loading_line; processing_line]
                               (import_calls ++ processing_calls image_path))
                       (Exited 0)).

(** ** Characters of a line *)

Fixpoint all_chars (f : ascii -> bool) (s : string) : bool :=
  match s with
  | EmptyString => true
  | String c t => f c && all_chars f t
  end.

(** Printable ASCII: space to tilde. *)
Definition printable_ascii (c : ascii) : bool :=
  let n := N_of_ascii c in (32 <=? n)%N && (n <=? 126)%N.

(** The text after the first character, and after the first [n]. *)
Definition string_tail (s : string) : string :=
  match s with
  | EmptyString => EmptyString
  | String _ t => t
  end.


(** ** Reading back one character of a JSON string *)

Definition hex_value (c : ascii) : option N :=
  let n := N_of_ascii c in
  if (48 <=? n)%N && (n <=? 57)%N then Some (n - 48)%N
  else if (97 <=? n)%N && (n <=? 102)%N then Some (n - 87)%N
  else None.

(** The inverse of [json_char] on the front of a text: the character that
    the next escape or plain character stands for, and the rest. A bare
    double quote ends the string and stands for no character. *)
Definition json_unchar (s : string) : option (ascii * string) :=
  match s with
  | EmptyString => None
  | String c r =>
      if Ascii.eqb c dquote then None
      else if Ascii.eqb c bslash then
        match r with
        | EmptyString => None
        | String x r' =>
            if Ascii.eqb x dquote then Some (dquote, r')
            else if Ascii.eqb x bslash then Some (bslash, r')
            else if Ascii.eqb x "n" then Some ("010"%char, r')
            else if Ascii.eqb x "r" then Some ("013"%char, r')
            else if Ascii.eqb x "t" then Some ("009"%char, r')
            else if Ascii.eqb x "b" then Some ("008"%char, r')
            else if Ascii.eqb x "f" then Some ("012"%char, r')
            else if Ascii.eqb x "u" then
              match r' with
              | String "0" (String "0" (String h (String l r''))) =>
                  match hex_value h, hex_value l with
                  | Some a, Some b => Some (ascii_of_N (16 * a + b), r'')
                  | _, _ => None
                  end
              | _ => None
              end
            else None
        end
      else Some (c, r)
  end.

(** * Lemmas *)

(** ** Encoding of the script's objects *)

Lemma json_dumps_error_object (msg : string) :
  json_dumps (error_object msg) = Return (error_line msg).
Proof. reflexivity. Qed.

Lemma json_dumps_status_object (msg : string) :
  json_dumps (status_object msg) = Return (status_line msg).
Proof. reflexivity. Qed.

Lemma json_dumps_text_object (text : pyval) :
  json_dumps (text_object text) =
  match json_dumps text with
  | Return s => Return (text_line s)
  | Raised e => Raised e
  end.
Proof.
  unfold text_object. cbn [json_dumps json_key].
  destruct (json_dumps text); reflexivity.
Qed.

Lemma error_line_not_text_line (msg value_text : string) :
  error_line msg <> text_line value_text.
Proof. intros H. vm_compute in H. discriminate H. Qed.

(** The encoders on values with nesting, key coercion and escapes. *)
Example json_dumps_nested :
  json_dumps (PDict [(PStr "text", PInt 42);
                     (PInt 3, PList [PNone; PBool true; PTuple [PFloat "1.5"]]);
                     (PNone, PStr "a\b")])
  = Return ("{" ++ quoted "text" ++ ": 42, " ++ quoted "3"
              ++ ": [null, true, [1.5]], " ++ quoted "null" ++ ": "
              ++ quoted "a\\b" ++ "}").
Proof. reflexivity. Qed.

Example json_dumps_tuple_key :
  json_dumps (PDict [(PTuple [PInt 1; PInt 2], PInt 1)])
  = Raised (Exc TypeError "keys must be str, int, float, bool or None, not tuple").
Proof. reflexivity. Qed.

Example py_str_nested :
  py_str (PDict [(PStr "te'xt", PInt (-42));
                 (PInt 3, PList [PNone; PBool true; PStr "a\b"; PTuple [PFloat "1.5"]]);
                 (PTuple [], PTuple [PInt 1; PInt 2])])
  = Return ("{" ++ quoted "te'xt"
              ++ ": -42, 3: [None, True, 'a\\b', (1.5,)], (): (1, 2)}").
Proof. reflexivity. Qed.

Example circular_list_forms :
  py_str circular_list = Return "[[...]]" /\
  json_dumps circular_list = Raised circular_reference.
Proof. split; reflexivity. Qed.

Example ordered_dict_forms :
  py_str (ordered_dict "OrderedDict([('text', 'HI')])" [(PStr "text", PStr "HI")])
    = Return "OrderedDict([('text', 'HI')])" /\
  json_dumps (ordered_dict "OrderedDict([('text', 'HI')])" [(PStr "text", PStr "HI")])
    = Return ("{" ++ quoted "text" ++ ": " ++ quoted "HI" ++ "}").
Proof. split; reflexivity. Qed.

Example json_string_escapes :
  json_string (String (ascii_of_N 233) (String (ascii_of_N 10) (String dquote "x")))
  = quoted ("\u00e9\n\" ++ str1 dquote ++ "x").
Proof. reflexivity. Qed.

(** ** Running the script along one path *)

Ltac unfold_script :=
  unfold output, exit_status, run, script, main, import_guard, processing,
    try_except, bind, outside, lift, print_json, print_json_stderr, print,
    print_stderr, sys_exit, raise, ret, subscript, start.

Ltac rewrite_world :=
  repeat match goal with
  | H : import_from _ _ _ = _ |- _ => rewrite H
  | H : nth_error (argv _) 1 = _ |- _ => rewrite H
  | H : (length (argv _) <? 2)%nat = _ |- _ => rewrite H
  | H : path_exists _ _ = _ |- _ => rewrite H
  | H : from_pretrained _ _ = _ |- _ => rewrite H
  | H : image_open _ _ = _ |- _ => rewrite H
  | H : model_call _ _ = _ |- _ => rewrite H
  | H : extract_text _ = _ |- _ => rewrite H
  | H : json_dumps _ = _ |- _ => rewrite H
  | H : isinstance_ImportError _ = _ |- _ => rewrite H
  | H : isinstance_Exception _ = _ |- _ => rewrite H
  end.

Ltac run_path :=
  unfold_script;
  repeat (progress (rewrite_world;
                    rewrite ?json_dumps_error_object, ?json_dumps_status_object;
                    cbn -[json_dumps error_object status_object text_object
                          error_line status_line text_line extract_text
                          missing_dependencies usage image_not_found
                          processing_failed model_identifier
                          py_str int_str Z.modulo Nat.ltb])).

Lemma second_argument_length {A : Type} (l : list A) (x : A) :
  nth_error l 1 = Some x -> (length l <? 2)%nat = false.
Proof.
  destruct l as [|a [|b t]]; cbn; intros H; try discriminate H; reflexivity.
Qed.



Lemma run_usage (w : World) :
  imports_ok w -> (length (argv w) <? 2)%nat = true ->
  run w = MkOutcome (MkProc [error_line usage] [] import_calls) (Exited 1).
Proof.
  intros [H1 H2] Ha. run_path. reflexivity.
Qed.

Lemma run_not_found (w : World) (image_path : string) :
  imports_ok w -> nth_error (argv w) 1 = Some image_path ->
  path_exists w image_path = Return false ->
  run w = MkOutcome
            (MkProc [error_line (image_not_found image_path)] []
                    (import_calls ++ [CExists image_path]))
            (Exited 1).
Proof.
  intros [H1 H2] Ha He.
  pose proof (second_argument_length _ _ Ha) as Hl.
  run_path. reflexivity.
Qed.

(** The existence test raises: nothing is printed, and the exception
    goes to the interpreter, whatever its class. *)
Lemma run_exists_raises (w : World) (image_path : string) (e : exc) :
  imports_ok w -> nth_error (argv w) 1 = Some image_path ->
  path_exists w image_path = Raised e ->
  run w = MkOutcome
            (MkProc [] [] (import_calls ++ [CExists image_path]))
            (interpreter_ending e).
Proof.
  intros [H1 H2] Ha He.
  pose proof (second_argument_length _ _ Ha) as Hl.
  run_path. destruct e as [code | | cls msg]; reflexivity.
Qed.

(** *** Runs that get to the [try] *)

Section Processing.

Variables (w : World) (image_path : string).
Hypothesis Hreach : reaches_processing w image_path.





End Processing.

(** ** Every world is on one of the paths *)



Lemma main_cases (w : World) :
  (length (argv w) <? 2)%nat = true \/
  (exists image_path e,
      nth_error (argv w) 1 = Some image_path /\
      path_exists w image_path = Raised e) \/
  (exists image_path,
      nth_error (argv w) 1 = Some image_path /\
      path_exists w image_path = Return false) \/
  (exists image_path,
      nth_error (argv w) 1 = Some image_path /\
      path_exists w image_path = Return true).
Proof.
  destruct (argv w) as [|name [|image_path rest]]; cbn.
  - left; reflexivity.
  - left; reflexivity.
  - right. destruct (path_exists w image_path) as [[|]|e] eqn:He.
    + right; right. exists image_path. split; [reflexivity | assumption].
    + right; left. exists image_path. split; [reflexivity | assumption].
    + left. exists image_path, e. split; [reflexivity | assumption].
Qed.


(** ** Consequences used by several theorems *)


Lemma text_line_of_dumps (value : pyval) (line : string) :
  json_dumps (text_object value) = Return line ->
  exists s, json_dumps value = Return s /\ line = text_line s.
Proof.
  rewrite json_dumps_text_object.
  destruct (json_dumps value) as [s|e]; intros H; [| discriminate H].
  exists s. split; [reflexivity | congruence].
Qed.





(** *** The extraction of the text *)

Lemma py_str_of_str (result : pyval) :
  isinstance_str result = true -> exists s, result = PStr s.
Proof. destruct result; intros H; try discriminate H. eexists; reflexivity. Qed.

(** With the string form [s] of the result at hand, the extraction
    returns, and follows the described precedence. *)
Lemma extract_text_with_str (result : pyval) (s : string) :
  py_str result = Return s ->
  extract_text result = Return (spec_normalize result s).
Proof.
  intros Hs. unfold extract_text, spec_normalize, py_get.
  destruct result; cbn [isinstance_dict isinstance_str mapping_items];
    rewrite ?Hs; cbn [and_then]; try reflexivity.
  - destruct (dict_lookup d "text"); reflexivity.
  - destruct (dict_lookup d "text"); reflexivity.
Qed.


(** Conversely, what [str()] raises on a result that is not a string,
    the extraction raises. *)
Lemma extract_text_str_raises (result : pyval) (e : exc) :
  py_str result = Raised e -> extract_text result = Raised e.
Proof.
  intros Hs. unfold extract_text.
  destruct result; cbn [isinstance_dict isinstance_str];
    rewrite ?Hs; cbn [and_then]; try reflexivity.
  discriminate Hs.
Qed.

(** The extracted text is a string, unless a mapping carries it in its
    [text] field. *)
Lemma extract_text_returns (result text : pyval) :
  extract_text result = Return text ->
  isinstance_str text = true \/
  exists d, mapping_items result = Some d /\ dict_lookup d "text" = Some text.
Proof.
  destruct (py_str result) as [s|e] eqn:Hs.
  - rewrite (extract_text_with_str result s Hs). intros H. injection H as H.
    subst text. unfold spec_normalize.
    destruct (mapping_items result) as [d|] eqn:Hm.
    + destruct (dict_lookup d "text") as [field|] eqn:Hl.
      * right. exists d. split; [reflexivity | exact Hl].
      * left. reflexivity.
    + left. destruct result; reflexivity.
  - rewrite (extract_text_str_raises result e Hs). intros H. discriminate H.
Qed.


(** ** The documented examples *)

Example mapping_with_text :
  run (demo ["shot.png"] (Return (PDict [(PStr "text", PStr "HELLO")])))
  = MkOutcome
      (MkProc ["{" ++ quoted "text" ++ ": " ++ quoted "HELLO" ++ "}"]
              [status_line "Loading DeepSeek-OCR model...";
               status_line "Processing image..."]
              (import_calls ++ [CExists "shot.png"; CFromPretrained model_identifier;
                                CImageOpen "shot.png"; CModelCall "shot.png"]))
      (Exited 0).
Proof. reflexivity. Qed.

Example bare_string :
  output (demo ["shot.png"] (Return (PStr "WORLD")))
  = ["{" ++ quoted "text" ++ ": " ++ quoted "WORLD" ++ "}"].
Proof. reflexivity. Qed.

Example mapping_without_text :
  output (demo ["shot.png"] (Return (PDict [(PStr "lines", PList [PStr "a"])])))
  = ["{" ++ quoted "text" ++ ": " ++ quoted "{'lines': ['a']}" ++ "}"].
Proof. reflexivity. Qed.

(** * Theorems *)




(** C2 (amended). When the two imports succeed and there is no positional
    argument, the program writes exactly
    [{"error": "Usage: python3 ocr_extract.py <image_path>"}] on standard
    output and exits with status 1. The missing-argument test runs after
    the import guard and before the file-existence test: the only outside
    calls of the run are the two imports. *)
Theorem usage_error_after_imports (w : World) :
  imports_ok w ->
  (length (argv w) < 2)%nat ->
  output w = [error_line usage] /\
  error_line usage
    = "{" ++ quoted "error" ++ ": "
          ++ quoted "Usage: python3 ocr_extract.py <image_path>" ++ "}" /\
  exit_status (run w) = 1 /\
  calls (final (run w)) = import_calls.
Proof.
  intros Hi Hl. apply Nat.ltb_lt in Hl.
  unfold output, exit_status. rewrite (run_usage w Hi Hl).
  repeat split; reflexivity.
Qed.

(** A run with the script name alone on the command line. *)
Lemma usage_error_after_imports_witness :
  output (demo [] (Return PNone)) = [error_line usage] /\
  error_line usage
    = "{" ++ quoted "error" ++ ": "
          ++ quoted "Usage: python3 ocr_extract.py <image_path>" ++ "}" /\
  exit_status (run (demo [] (Return PNone))) = 1 /\
  calls (final (run (demo [] (Return PNone)))) = import_calls.
Proof.
  apply (usage_error_after_imports (demo [] (Return PNone))).
  - split; reflexivity.
  - cbn. lia.
Defined.

(** C2, as stated, fails: with no positional argument and the first import
    raising [ModuleNotFoundError], the line on standard output is the
    missing-dependencies error, not the usage error. *)
Lemma usage_error_not_before_imports :
  (length (argv (importing no_transformers [] false)) < 2)%nat /\
  output (importing no_transformers [] false)
    = [error_line (missing_dependencies no_transformers)] /\
  output (importing no_transformers [] false) <> [error_line usage].
Proof.
  split; [cbn; lia | split; [reflexivity |]].
  intros H. vm_compute in H. discriminate H.
Qed.













(** C7 (amended). When the two imports succeed and the first positional
    argument names a path for which the existence test returns false, the
    program writes [{"error": "Image file not found: <path>"}] with that
    path, and exits with status 1; it has then made no outside call but
    the imports and the existence test, so neither the model load nor the
    inference is attempted, and nothing is on the diagnostic stream. *)
Theorem image_not_found_error (w : World) (image_path : string) :
  imports_ok w ->
  nth_error (argv w) 1 = Some image_path ->
  path_exists w image_path = Return false ->
  output w = [error_line (image_not_found image_path)] /\
  image_not_found image_path = "Image file not found: " ++ image_path /\
  exit_status (run w) = 1 /\
  calls (final (run w)) = (import_calls ++ [CExists image_path])%list /\
  stderr (final (run w)) = [].
Proof.
  intros Hi Ha He.
  unfold output, exit_status. rewrite (run_not_found w image_path Hi Ha He).
  repeat split; reflexivity.
Qed.

(** The documented example: [/tmp/does-not-exist.png]. *)
Lemma image_not_found_error_witness :
  output (demo ["/tmp/does-not-exist.png"] (Return PNone))
    = ["{" ++ quoted "error" ++ ": "
           ++ quoted "Image file not found: /tmp/does-not-exist.png" ++ "}"] /\
  exit_status (run (demo ["/tmp/does-not-exist.png"] (Return PNone))) = 1.
Proof.
  destruct (image_not_found_error (demo ["/tmp/does-not-exist.png"] (Return PNone))
              "/tmp/does-not-exist.png") as (Ho & _ & Hs & _).
  - split; reflexivity.
  - reflexivity.
  - reflexivity.
  - split; [exact Ho | exact Hs].
Defined.

(** C7, as stated, fails twice. With a positional argument naming a path
    that does not exist and an import raising [ModuleNotFoundError], the
    line on standard output is the missing-dependencies error, not the
    file-not-found error. And for a path that is not on disk because its
    name is longer than the system allows, the existence test raises an
    [OSError] under no handler: nothing is written on standard output and
    the exception reaches the interpreter. *)
Lemma not_found_masked_by_imports :
  (nth_error (argv (importing no_transformers ["/tmp/does-not-exist.png"] false)) 1
     = Some "/tmp/does-not-exist.png" /\
   path_exists (importing no_transformers ["/tmp/does-not-exist.png"] false)
     "/tmp/does-not-exist.png" = Return false /\
   output (importing no_transformers ["/tmp/does-not-exist.png"] false)
     <> [error_line (image_not_found "/tmp/does-not-exist.png")]) /\
  (path_exists (unexaminable "long-name.png") "long-name.png" = Raised name_too_long /\
   output (unexaminable "long-name.png") = [] /\
   ending (run (unexaminable "long-name.png")) = Uncaught name_too_long).
Proof.
  split; [split; [reflexivity | split; [reflexivity |]] | repeat split].
  intros H. vm_compute in H. discriminate H.
Qed.







(** C10. Only the first positional argument counts: two invocations in
    the same world whose argument lists have the same first positional
    argument run identically (same standard output, same diagnostic
    stream, same outside calls, same ending), whatever the script name and
    however many arguments follow. *)
Theorem extra_arguments_ignored (w : World) (args1 args2 : list string)
    (image_path : string) :
  nth_error args1 1 = Some image_path ->
  nth_error args2 1 = Some image_path ->
  run (with_argv w args1) = run (with_argv w args2) /\
  output (with_argv w args1) = output (with_argv w args2) /\
  exit_status (run (with_argv w args1)) = exit_status (run (with_argv w args2)).
Proof.
  intros H1 H2.
  assert (H : run (with_argv w args1) = run (with_argv w args2)).
  { destruct args1 as [|n1 [|p1 r1]]; try discriminate H1.
    destruct args2 as [|n2 [|p2 r2]]; try discriminate H2.
    cbn in H1, H2. injection H1 as H1. injection H2 as H2. subst p1 p2.
    reflexivity. }
  unfold output. rewrite H. repeat split; reflexivity.
Qed.

(** Another script name and two more arguments after [shot.png]. *)
Lemma extra_arguments_ignored_witness :
  run (with_argv (demo [] (Return (PStr "WORLD"))) ["ocr_extract.py"; "shot.png"])
    = run (with_argv (demo [] (Return (PStr "WORLD")))
                     ["ocr.py"; "shot.png"; "--verbose"; "other.png"]).
Proof.
  apply (extra_arguments_ignored (demo [] (Return (PStr "WORLD")))
           ["ocr_extract.py"; "shot.png"]
           ["ocr.py"; "shot.png"; "--verbose"; "other.png"] "shot.png");
    reflexivity.
Defined.

(** * Further properties of the script *)

(** ** The whole run, stage by stage *)

Lemma run_first_import_raises (w : World) (e : exc) :
  import_from w "transformers" "AutoModel" = Raised e ->
  run w = raised_under isinstance_ImportError missing_dependencies e []
            [CImport "transformers" "AutoModel"].
Proof.
  intros H1. unfold raised_under.
  destruct (isinstance_ImportError e) eqn:Hc; run_path;
    destruct e as [code | | cls msg]; try discriminate Hc; reflexivity.
Qed.

Lemma run_second_import_raises (w : World) (e : exc) :
  import_from w "transformers" "AutoModel" = Return tt ->
  import_from w "PIL" "Image" = Raised e ->
  run w = raised_under isinstance_ImportError missing_dependencies e []
            import_calls.
Proof.
  intros H1 H2. unfold raised_under.
  destruct (isinstance_ImportError e) eqn:Hc; run_path;
    destruct e as [code | | cls msg]; try discriminate Hc; reflexivity.
Qed.

Section Stages.

Variables (w : World) (image_path : string).
Hypothesis Hreach : reaches_processing w image_path.

Let Hargs : (length (argv w) <? 2)%nat = false :=
  second_argument_length (argv w) image_path (proj1 (proj2 Hreach)).

Lemma run_load_raises (e : exc) :
  from_pretrained w model_identifier = Raised e ->
  run w = raised_under isinstance_Exception processing_failed e
            [loading_line]
            (import_calls ++ firstn 2 (processing_calls image_path)).
Proof.
  intros Hl. pose proof Hargs as Ha0.
  destruct Hreach as ([H1 H2] & Ha & He). unfold raised_under.
  destruct (isinstance_Exception e) eqn:Hc; run_path;
    destruct e as [code | | cls msg]; try discriminate Hc; reflexivity.
Qed.

Lemma run_open_raises (e : exc) :
  from_pretrained w model_identifier = Return tt ->
  image_open w image_path = Raised e ->
  run w = raised_under isinstance_Exception processing_failed e
            [loading_line; processing_line]
            (import_calls ++ firstn 3 (processing_calls image_path)).
Proof.
  intros Hl Ho. pose proof Hargs as Ha0.
  destruct Hreach as ([H1 H2] & Ha & He). unfold raised_under.
  destruct (isinstance_Exception e) eqn:Hc; run_path;
    destruct e as [code | | cls msg]; try discriminate Hc; reflexivity.
Qed.

Lemma run_call_raises (e : exc) :
  from_pretrained w model_identifier = Return tt ->
  image_open w image_path = Return tt ->
  model_call w image_path = Raised e ->
  run w = raised_under isinstance_Exception processing_failed e
            [loading_line; processing_line]
            (import_calls ++ processing_calls image_path).
Proof.
  intros Hl Ho Hm. pose proof Hargs as Ha0.
  destruct Hreach as ([H1 H2] & Ha & He). unfold raised_under.
  destruct (isinstance_Exception e) eqn:Hc; run_path;
    destruct e as [code | | cls msg]; try discriminate Hc; reflexivity.
Qed.

(** The model returns: the run ends on the line for the extracted text,
    or on what the encoder raises, under the handler. *)
Lemma run_model_returns (result text : pyval) :
  from_pretrained w model_identifier = Return tt ->
  image_open w image_path = Return tt ->
  model_call w image_path = Return result ->
  extract_text result = Return text ->
  run w =
  match json_dumps (text_object text) with
  | Return line =>
      MkOutcome (MkProc [line] [loading_line; processing_line]
                        (import_calls ++ processing_calls image_path))
                (Exited 0)
  | Raised e =>
      raised_under isinstance_Exception processing_failed e
        [loading_line; processing_line]
        (import_calls ++ processing_calls image_path)
  end.
Proof.
  intros Hl Ho Hm Hx. pose proof Hargs as Ha0.
  destruct Hreach as ([H1 H2] & Ha & He).
  destruct (json_dumps (text_object text)) as [line|e] eqn:Hj.
  - run_path. reflexivity.
  - unfold raised_under.
    destruct (isinstance_Exception e) eqn:Hc; run_path;
      destruct e as [code | | cls msg]; try discriminate Hc; reflexivity.
Qed.

(** The extraction of the text raises, under the handler. *)
Lemma run_extract_raises (result : pyval) (e : exc) :
  from_pretrained w model_identifier = Return tt ->
  image_open w image_path = Return tt ->
  model_call w image_path = Return result ->
  extract_text result = Raised e ->
  run w = raised_under isinstance_Exception processing_failed e
            [loading_line; processing_line]
            (import_calls ++ processing_calls image_path).
Proof.
  intros Hl Ho Hm Hx. pose proof Hargs as Ha0.
  destruct Hreach as ([H1 H2] & Ha & He). unfold raised_under.
  destruct (isinstance_Exception e) eqn:Hc; run_path;
    destruct e as [code | | cls msg]; try discriminate Hc; reflexivity.
Qed.

End Stages.

(** ** The JSON string encoding can be read back *)

Lemma append_assoc (a b c : string) : ((a ++ b) ++ c = a ++ (b ++ c))%string.
Proof. induction a as [|x a IH]; cbn; [reflexivity | rewrite IH; reflexivity]. Qed.

Lemma json_unchar_char (c : ascii) (r : string) :
  json_unchar (json_char c ++ r) = Some (c, r).
Proof.
  destruct c as [[|] [|] [|] [|] [|] [|] [|] [|]]; reflexivity.
Qed.

(** The body of a JSON string, up to its closing quote, determines the
    text it encodes and what follows the quote. *)
Lemma json_body_inj (s1 : string) :
  forall s2 r1 r2,
    (concat_map_chars json_char s1 ++ String dquote r1
     = concat_map_chars json_char s2 ++ String dquote r2)%string ->
    s1 = s2 /\ r1 = r2.
Proof.
  induction s1 as [|a t1 IH]; intros [|b t2] r1 r2; cbn [concat_map_chars];
    rewrite ?append_assoc; intros H.
  - cbn in H. injection H as H. split; [reflexivity | exact H].
  - exfalso. apply (f_equal json_unchar) in H.
    rewrite json_unchar_char in H. cbn in H. discriminate H.
  - exfalso. apply (f_equal json_unchar) in H.
    rewrite json_unchar_char in H. cbn in H. discriminate H.
  - pose proof (f_equal json_unchar H) as Hu.
    rewrite !json_unchar_char in Hu. injection Hu as Hab Hrest.
    subst b. destruct (IH t2 r1 r2 Hrest) as [Ht Hr].
    subst t2. split; [reflexivity | exact Hr].
Qed.

Lemma json_string_inj (s1 s2 : string) :
  json_string s1 = json_string s2 -> s1 = s2.
Proof.
  unfold json_string, str1. cbn [append]. intros H.
  apply (json_body_inj s1 s2 EmptyString EmptyString).
  exact (f_equal string_tail H).
Qed.


(** ** The encoding uses printable ASCII only *)

Lemma all_chars_app (f : ascii -> bool) (a b : string) :
  all_chars f (a ++ b) = all_chars f a && all_chars f b.
Proof.
  induction a as [|x a IH]; cbn; [reflexivity |].
  rewrite IH. apply andb_assoc.
Qed.

Lemma json_char_printable (c : ascii) :
  all_chars printable_ascii (json_char c) = true.
Proof.
  destruct c as [[|] [|] [|] [|] [|] [|] [|] [|]]; reflexivity.
Qed.

Lemma json_string_printable (s : string) :
  all_chars printable_ascii (json_string s) = true.
Proof.
  unfold json_string. rewrite !all_chars_app.
  assert (H : all_chars printable_ascii (concat_map_chars json_char s) = true).
  { induction s as [|c t IH]; cbn [concat_map_chars]; [reflexivity |].
    rewrite all_chars_app, json_char_printable, IH. reflexivity. }
  rewrite H. reflexivity.
Qed.

Lemma object_line_printable (key value_text : string) :
  all_chars printable_ascii value_text = true ->
  all_chars printable_ascii (object_line key value_text) = true.
Proof.
  intros H. unfold object_line.
  rewrite !all_chars_app, json_string_printable, H. reflexivity.
Qed.

(** ** Every run, with its whole trace *)

Lemma raised_under_trace (catches : exc -> bool) (msg : exc -> string)
    (e : exc) (err : list string) (cs : list call) :
  stderr (final (raised_under catches msg e err cs)) = err /\
  calls (final (raised_under catches msg e err cs)) = cs /\
  (stdout (final (raised_under catches msg e err cs)) = [] \/
   catches e = true /\
   stdout (final (raised_under catches msg e err cs)) = [error_line (msg e)] /\
   ending (raised_under catches msg e err cs) = Exited 1).
Proof.
  unfold raised_under. destruct (catches e); cbn.
  - repeat split. right. repeat split.
  - repeat split. left. reflexivity.
Qed.

Lemma run_stops (w : World) : stops w (run w).
Proof.
  destruct (import_from w "transformers" "AutoModel") as [[]|e] eqn:H1.
  2:{ rewrite (run_first_import_raises w e H1). apply stops_first_import; exact H1. }
  destruct (import_from w "PIL" "Image") as [[]|e] eqn:H2.
  2:{ rewrite (run_second_import_raises w e H1 H2).
      apply stops_second_import; assumption. }
  assert (Hi : imports_ok w) by (split; assumption).
  destruct (main_cases w)
    as [Hl | [(p & e & Ha & He) | [(p & Ha & He) | (p & Ha & He)]]].
  - rewrite (run_usage w Hi Hl). apply stops_usage; assumption.
  - rewrite (run_exists_raises w p e Hi Ha He). apply stops_exists; assumption.
  - rewrite (run_not_found w p Hi Ha He). apply stops_not_found; assumption.
  - assert (Hr : reaches_processing w p) by (repeat split; assumption).
    destruct (from_pretrained w model_identifier) as [[]|e] eqn:Hl.
    2:{ rewrite (run_load_raises w p Hr e Hl). apply stops_load; assumption. }
    destruct (image_open w p) as [[]|e] eqn:Ho.
    2:{ rewrite (run_open_raises w p Hr e Hl Ho). apply stops_open; assumption. }
    destruct (model_call w p) as [result|e] eqn:Hm.
    2:{ rewrite (run_call_raises w p Hr e Hl Ho Hm). apply stops_call; assumption. }
    destruct (extract_text result) as [text|e] eqn:Hx.
    2:{ rewrite (run_extract_raises w p Hr result e Hl Ho Hm Hx).
        eapply stops_extract; eassumption. }
    rewrite (run_model_returns w p Hr result text Hl Ho Hm Hx).
    destruct (json_dumps (text_object text)) as [line|e] eqn:Hj.
    + eapply stops_printed; eassumption.
    + eapply stops_rejected; eassumption.
Qed.





(** X1. The outside calls of every run are an initial part of one fixed
    sequence: the import of the model runtime, the import of the image
    library, then, on the first positional argument, the existence test,
    the model load, the image open and the model call. No call is made
    twice, none out of order, and the path that is opened and given to the
    model is the one that was tested. *)
Theorem outside_calls_follow_plan (w : World) :
  exists n, calls (final (run w)) = firstn n (planned_calls w).
Proof.
  destruct (run_stops w);
    try match goal with
        | |- context [raised_under ?c ?m ?e ?err ?cs] =>
            rewrite (proj1 (proj2 (raised_under_trace c m e err cs)))
        end;
    try match goal with
        | Hr : reaches_processing _ _ |- _ =>
            destruct Hr as (_ & Ha & _)
        end;
    unfold planned_calls; rewrite ?H0, ?Ha; cbn [final calls].
  - exists 1%nat. reflexivity.
  - exists 2%nat. reflexivity.
  - exists 2%nat. reflexivity.
  - exists 3%nat. reflexivity.
  - exists 3%nat. reflexivity.
  - exists 4%nat. reflexivity.
  - exists 5%nat. reflexivity.
  - exists 6%nat. reflexivity.
  - exists 6%nat. reflexivity.
  - exists 6%nat. reflexivity.
  - exists 6%nat. reflexivity.
Qed.






(** ** What [main] can raise *)





(** ** Reading the failure off the error line *)








Lemma stderr_cases (w : World) :
  stderr (final (run w)) = [] \/
  stderr (final (run w)) = [loading_line] \/
  stderr (final (run w)) = [loading_line; processing_line].
Proof.
  destruct (run_stops w);
    try match goal with
        | |- context [raised_under ?c ?m ?e ?err ?cs] =>
            rewrite (proj1 (raised_under_trace c m e err cs))
        end;
    cbn [final stderr]; tauto.
Qed.



Lemma error_line_printable (msg : string) :
  all_chars printable_ascii (error_line msg) = true.
Proof. apply object_line_printable. apply json_string_printable. Qed.

Lemma status_line_printable (msg : string) :
  all_chars printable_ascii (status_line msg) = true.
Proof. apply object_line_printable. apply json_string_printable. Qed.

Lemma json_dumps_text_string (s : string) :
  json_dumps (text_object (PStr s)) = Return (text_line (json_string s)).
Proof. reflexivity. Qed.

(** X8. Whatever characters the image path, the exception texts or the
    recognised text hold (quotes, line breaks, code points above 127),
    the lines the script prints are printable ASCII, so each object stays
    on one line: every line of the diagnostic stream, every error line,
    and every text line, with the one exception of a text field that the
    mapping returned by the model holds as a non-string. *)
Theorem lines_are_printable_ascii (w : World) :
  (forall line, In line (stderr (final (run w))) ->
     all_chars printable_ascii line = true) /\
  (forall line, In line (output w) ->
     all_chars printable_ascii line = true \/
     exists image_path result d field,
       model_call w image_path = Return result /\
       mapping_items result = Some d /\
       dict_lookup d "text" = Some field /\
       isinstance_str field = false /\
       json_dumps (text_object field) = Return line).
Proof.
  split.
  - intros line Hin.
    destruct (stderr_cases w) as [He | [He | He]]; rewrite He in Hin; cbn [In] in Hin.
    + destruct Hin.
    + destruct Hin as [<- | []]. apply status_line_printable.
    + destruct Hin as [<- | [<- | []]]; apply status_line_printable.
  - unfold output. intros line Hin.
    destruct (run_stops w);
      try match goal with
          | _ : context [raised_under ?c ?m ?e ?err ?cs] |- _ =>
              destruct (raised_under_trace c m e err cs)
                as (_ & _ & [Hs | (_ & Hs & _)]);
              rewrite Hs in Hin; cbn [In] in Hin;
              [destruct Hin |
               destruct Hin as [<- | []]; left; apply error_line_printable]
          end;
      try (cbn [final stdout In] in Hin; exact (False_ind _ Hin));
      try (cbn [final stdout In] in Hin; destruct Hin as [<- | []];
           left; apply error_line_printable).
    cbn [final stdout In] in Hin. destruct Hin as [Hin | []]. subst line0.
    match goal with
    | Hx : extract_text result = Return text,
      Hj : json_dumps (text_object text) = Return line |- _ =>
        destruct (isinstance_str text) eqn:Hstr;
        [ left; destruct text; try discriminate Hstr;
          rewrite json_dumps_text_string in Hj; injection Hj as Hj; subst line;
          apply object_line_printable; apply json_string_printable
        | right;
          destruct (extract_text_returns result text Hx)
            as [Hs | (d & Hd & Hl)]; [congruence |];
          exists image_path, result, d, text; repeat split; assumption ]
    end.
Qed.

(** A path with a quote and a line break in it, not on disk. *)
Lemma lines_are_printable_ascii_witness :
  all_chars printable_ascii
    (error_line (image_not_found
       (String dquote (String "010"%char "x.png")))) = true.
Proof.
  destruct (proj2 (lines_are_printable_ascii
                     (demo [String dquote (String "010"%char "x.png")]
                           (Return PNone)))
              (error_line (image_not_found
                 (String dquote (String "010"%char "x.png")))))
    as [H | (p & r & d & field & _ & _ & _ & _ & Hj)].
  - left. reflexivity.
  - exact H.
  - exfalso.
    destruct (text_line_of_dumps field _ Hj) as (s & _ & Hs).
    exact (error_line_not_text_line _ _ Hs).
Defined.





(** X11. The expensive steps are guarded: a model is loaded only under
    the fixed identifier, and only when both imports succeeded and the
    first positional argument names a path that is on disk; the image is
    opened, and the model called, only on that path and only after the
    model load returned. *)
Theorem model_loaded_only_for_existing_image (w : World) :
  (forall identifier,
     In (CFromPretrained identifier) (calls (final (run w))) ->
     identifier = model_identifier /\
     exists image_path, reaches_processing w image_path) /\
  (forall image_path,
     In (CImageOpen image_path) (calls (final (run w))) ->
     reaches_processing w image_path /\
     from_pretrained w model_identifier = Return tt) /\
  (forall image_path,
     In (CModelCall image_path) (calls (final (run w))) ->
     reaches_processing w image_path /\
     from_pretrained w model_identifier = Return tt /\
     image_open w image_path = Return tt).
Proof.
  destruct (run_stops w);
    try match goal with
        | |- context [raised_under ?c ?m ?e ?err ?cs] =>
            rewrite (proj1 (proj2 (raised_under_trace c m e err cs)))
        end;
    cbn [final calls import_calls processing_calls firstn app In];
    (split; [| split]); intros x Hin;
    repeat match goal with
           | H : _ \/ _ |- _ => destruct H
           | H : False |- _ => destruct H
           | H : _ = _ :> call |- _ => first [discriminate H | injection H as H; subst x]
           end;
    repeat split; try assumption; try reflexivity;
    try (eexists; eassumption);
    try match goal with
        | Hr : reaches_processing _ _ |- _ => apply Hr
        end.
Qed.

(** A complete run on [shot.png]. *)
Lemma model_loaded_only_for_existing_image_witness :
  reaches_processing (demo ["shot.png"] (Return (PStr "WORLD"))) "shot.png" /\
  from_pretrained (demo ["shot.png"] (Return (PStr "WORLD"))) model_identifier
    = Return tt /\
  image_open (demo ["shot.png"] (Return (PStr "WORLD"))) "shot.png" = Return tt.
Proof.
  apply (proj2 (proj2 (model_loaded_only_for_existing_image
                         (demo ["shot.png"] (Return (PStr "WORLD")))))
           "shot.png").
  cbn. tauto.
Defined.

(** X12. The existence test of line 25 is under no handler. When it
    raises (the [OSError] of a name longer than the system allows, of a
    directory that cannot be searched), nothing is written on either
    stream, no model is loaded, and the exception reaches the interpreter
    whatever its class: the caller finds no JSON object, and exit status 1
    for an instance of [Exception]. *)
Theorem existence_test_is_unguarded (w : World) (image_path : string) (e : exc) :
  imports_ok w ->
  nth_error (argv w) 1 = Some image_path ->
  path_exists w image_path = Raised e ->
  output w = [] /\
  stderr (final (run w)) = [] /\
  calls (final (run w)) = (import_calls ++ [CExists image_path])%list /\
  ending (run w) = interpreter_ending e /\
  (isinstance_Exception e = true ->
     ending (run w) = Uncaught e /\ exit_status (run w) = 1).
Proof.
  intros Hi Ha He. unfold output, exit_status.
  rewrite (run_exists_raises w image_path e Hi Ha He).
  repeat split; destruct e as [code | | cls msg]; try discriminate; reflexivity.
Qed.

(** A name of 300 characters. *)
Lemma existence_test_is_unguarded_witness :
  output (unexaminable "long-name.png") = [] /\
  stderr (final (run (unexaminable "long-name.png"))) = [] /\
  calls (final (run (unexaminable "long-name.png")))
    = (import_calls ++ [CExists "long-name.png"])%list /\
  ending (run (unexaminable "long-name.png")) = interpreter_ending name_too_long /\
  (isinstance_Exception name_too_long = true ->
     ending (run (unexaminable "long-name.png")) = Uncaught name_too_long /\
     exit_status (run (unexaminable "long-name.png")) = 1).
Proof.
  apply (existence_test_is_unguarded (unexaminable "long-name.png") "long-name.png"
           name_too_long).
  - split; reflexivity.
  - reflexivity.
  - reflexivity.
Defined.


